(** * Stock dashboard: a shallow embedding of [fetch_data.py]

    The script fetches a price history and a quote snapshot per ticker,
    derives two rolling means, renders summary cards and charts into one
    HTML string and writes that string to [dashboard.html].

    Conventions of the embedding:
    - a Python number is a [pynum]: an [int] is a [Z], a [float] is an exact
      rational (rounding, NaN and infinities of binary floats are outside
      the model);
    - the market-data provider (yfinance), the chart renderer (plotly) and
      the wall clock are the collaborators of the script; they are
      parameters of the development, and every call to the provider is
      recorded in a log;
    - a Python exception is a value of type [exn]; raising is returning it
      on the left of a sum. *)

From Stdlib Require Import ZArith QArith Qabs List Ascii String DecimalString Lia.
From stdpp Require Import gmap strings.

Local Open Scope Z_scope.
Local Open Scope string_scope.

(** ** Python numbers *)

Inductive pynum :=
| PyInt (z : Z)
| PyFloat (q : Q).

Definition to_Q (n : pynum) : Q :=
  match n with
  | PyInt z => inject_Z z
  | PyFloat q => q
  end.

(** [a >= b] on numbers. *)
Definition py_ge (a : pynum) (b : Q) : bool := Qle_bool b (to_Q a).

(** [a / b], true division; the result is a float. *)
Definition py_truediv (a : pynum) (b : Q) : pynum := PyFloat (to_Q a / b).

Definition e6 : Q := inject_Z 1000000.
Definition e9 : Q := inject_Z 1000000000.
Definition e12 : Q := inject_Z 1000000000000.

(** ** Format specifications of the f-strings *)

Module Fmt.

(** Nearest integer, ties to the even neighbour: the rounding of the
    [f] presentation type. *)
Definition round_half_even (q : Q) : Z :=
  let n := Qnum q in
  let d := Zpos (Qden q) in
  let f := n / d in
  let r := n mod d in
  match 2 * r ?= d with
  | Lt => f
  | Gt => f + 1
  | Eq => if Z.even f then f else f + 1
  end.

(** Decimal digits of a natural number, most significant first. *)
Definition digits (n : N) : string := NilZero.string_of_uint (N.to_uint n).

Fixpoint group3 (rev_digits : list ascii) : list ascii :=
  match rev_digits with
  | a :: b :: c :: ((_ :: _) as rest) => a :: b :: c :: ","%char :: group3 rest
  | l => l
  end.

(** The [,] option: a comma between every group of three integer digits,
    counted from the right. *)
Definition commas (s : string) : string :=
  string_of_list_ascii (rev (group3 (rev (list_ascii_of_string s)))).

Fixpoint zero_pad (width : nat) (s : string) : string :=
  match width with
  | O => s
  | S w => if (String.length s <? S w)%nat then zero_pad w ("0" +:+ s) else s
  end.

Definition sign (q : Q) : string :=
  if Qle_bool 0 q then EmptyString else "-".

(** [format(x, '.<prec>f')] and [format(x, ',.<prec>f')] for [prec] 0
    or more: sign, integer digits (grouped when [comma]), and [prec]
    fractional digits after a point when [prec] is positive. *)
Definition fixed (comma : bool) (prec : nat) (x : pynum) : string :=
  let q := to_Q x in
  let scale := 10 ^ Z.of_nat prec in
  let m := Z.to_N (round_half_even (Qabs q * inject_Z scale)) in
  let ip := digits (m / Z.to_N scale) in
  let ip := if comma then commas ip else ip in
  let fp := zero_pad prec (digits (m mod Z.to_N scale)) in
  sign q +:+ ip +:+ (match prec with O => EmptyString | S _ => "." +:+ fp end).

Definition f2 : pynum -> string := fixed false 2.
Definition comma_f0 : pynum -> string := fixed true 0.

End Fmt.

(** ** [format_number] (the closure defined inside the card loop) *)

Definition format_number (num : pynum) : string :=
  if py_ge num e12 then
    "$" +:+ Fmt.f2 (py_truediv num e12) +:+ "T"
  else if py_ge num e9 then
    "$" +:+ Fmt.f2 (py_truediv num e9) +:+ "B"
  else if py_ge num e6 then
    "$" +:+ Fmt.f2 (py_truediv num e6) +:+ "M"
  else
    "$" +:+ Fmt.comma_f0 num.

(** ** Data model *)

(** One bar of the history frame: the index entry and the five columns
    the provider fills. *)
Record PricePoint := {
  Date : string;
  Open : Q;
  High : Q;
  Low : Q;
  Close : Q;
  Volume : Z
}.

(** The frame [hist] after [get_stock_data] added its two columns; a
    missing value (NaN) of a derived column is [None]. *)
Record DataFrame := {
  rows : list PricePoint;
  MA20 : list (option Q);
  MA50 : list (option Q)
}.

(** The dict [current_data]; its eight keys are fixed by the literal. *)
Record Quote := {
  price : pynum;
  change : pynum;
  change_pct : pynum;
  volume : pynum;
  market_cap : pynum;
  pe_ratio : pynum;
  day_high : pynum;
  day_low : pynum
}.

(** [d.get(key, default)] *)
Definition dict_get (d : gmap string pynum) (key : string) (default : pynum) : pynum :=
  match d !! key with
  | Some v => v
  | None => default
  end.

(** ** [Series.rolling(window=w).mean()]

    For an integer window pandas takes [min_periods = window] and runs
    one pass with a running sum and a count of observations: the value
    leaving the window is removed, the entering one added, and the mean
    is produced once the count reaches [min_periods]. *)

Module Rolling.

Local Open Scope Q_scope.

Record acc := { sum_x : Q; nobs : nat }.

Definition add_mean (a : acc) (v : Q) : acc :=
  {| sum_x := sum_x a + v; nobs := S (nobs a) |}.

Definition remove_mean (a : acc) (v : Q) : acc :=
  {| sum_x := sum_x a - v; nobs := Nat.pred (nobs a) |}.

Definition calc_mean (minp : nat) (a : acc) : option Q :=
  if ((minp <=? nobs a) && (0 <? nobs a))%nat
  then Some (sum_x a / inject_Z (Z.of_nat (nobs a)))
  else None.

(** One index of the pass: the value that left the window is removed
    (from index [window] on), the new one is added. *)
Definition step (window : nat) (values : list Q) (i : nat) (a : acc) (v : Q) : acc :=
  add_mean (if (window <=? i)%nat
            then remove_mean a (nth (i - window) values 0)
            else a) v.

Fixpoint roll (window : nat) (values : list Q) (i : nat) (a : acc)
    (todo : list Q) : list (option Q) :=
  match todo with
  | [] => []
  | v :: todo' =>
      let a := step window values i a v in
      calc_mean window a :: roll window values (S i) a todo'
  end.

Definition mean (window : nat) (values : list Q) : list (option Q) :=
  roll window values 0 {| sum_x := 0; nobs := 0 |} values.

End Rolling.

(** ** The collaborators and the effects of the script *)

(** A round trip to the market-data provider. *)
Inductive Call :=
| History (ticker period : string)
| Info (ticker : string).

(** The state the script runs in: the provider (whose answers may change
    from one call to the next), the reading [datetime.now()] gives,
    formatted by [strftime], and the log of the round trips made so far. *)
Record World (Provider : Type) := {
  provider : Provider;
  clock : string;
  log : list Call
}.
Arguments provider {Provider} _.
Arguments clock {Provider} _.
Arguments log {Provider} _.

(** The figure handed to plotly: the two subplot titles and the four
    traces [create_dashboard] adds. *)
Record Figure := {
  subplot_titles : string * string;
  candlestick : list PricePoint;
  ma20_y : list (option Q);
  ma50_y : list (option Q);
  volume_y : list Z;
  marker_color : list string
}.

(** The character [chr(34)]. *)
Definition dq : string := String (ascii_of_nat 34) EmptyString.

Definition default_period : string := "3mo".

(** The two columns [get_stock_data] adds to the frame:
    [hist['MA20'] = hist['Close'].rolling(window=20).mean()], and the
    same with 50. *)
Definition add_moving_averages (hist : list PricePoint) : DataFrame := {|
  rows := hist;
  MA20 := Rolling.mean 20 (map Close hist);
  MA50 := Rolling.mean 50 (map Close hist)
|}.

(** The dict [current_data] built from [stock.info]. *)
Definition current_data (info : gmap string pynum) : Quote := {|
  price := dict_get info "currentPrice" (dict_get info "regularMarketPrice" (PyInt 0));
  change := dict_get info "regularMarketChange" (PyInt 0);
  change_pct := dict_get info "regularMarketChangePercent" (PyInt 0);
  volume := dict_get info "volume" (PyInt 0);
  market_cap := dict_get info "marketCap" (PyInt 0);
  pe_ratio := dict_get info "trailingPE" (PyInt 0);
  day_high := dict_get info "dayHigh" (PyInt 0);
  day_low := dict_get info "dayLow" (PyInt 0)
|}.

Section Dashboard.

Context {exn Provider : Type}.

(** [yf.Ticker(t).history(period=p)] and [yf.Ticker(t).info]: each
    answers or raises, and moves the provider to its next state. *)
Variable yf_history : Provider -> string -> string -> (exn + list PricePoint) * Provider.
Variable yf_info : Provider -> string -> (exn + gmap string pynum) * Provider.

(** [fig.to_html(include_plotlyjs=False, div_id=...)] *)
Variable plotly_to_html : Figure -> string -> string.

(** [format(x, ',')] for a float [x] (the shortest repr, grouped). *)
Variable float_comma : Q -> string.

(** Computations of the script: state passing over the world, with the
    exception on the left. *)
Definition M (A : Type) : Type := World Provider -> (exn + A) * World Provider.

#[global] Instance M_ret : MRet M := fun A a w => (inr a, w).

#[global] Instance M_bind : MBind M := fun A B f m w =>
  match m w with
  | (inl e, w') => (inl e, w')
  | (inr a, w') => f a w'
  end.

Definition stock_history (ticker period : string) : M (list PricePoint) := fun w =>
  let '(r, p) := yf_history (provider w) ticker period in
  (r, {| provider := p; clock := clock w; log := log w ++ [History ticker period] |}).

Definition stock_info (ticker : string) : M (gmap string pynum) := fun w =>
  let '(r, p) := yf_info (provider w) ticker in
  (r, {| provider := p; clock := clock w; log := log w ++ [Info ticker] |}).

Definition datetime_now : M string := fun w => (inr (clock w), w).

(** The same world at another time of day. *)
Definition set_clock (c : string) (w : World Provider) : World Provider :=
  {| provider := provider w; clock := c; log := log w |}.

(** A computation that neither reads nor sets the clock. *)
Definition clock_blind {A : Type} (m : M A) : Prop :=
  forall c w, m (set_clock c w) = (fst (m w), set_clock c (snd (m w))).

(** ** [get_stock_data] *)

Definition get_stock_data (ticker period : string) : M (DataFrame * Quote) :=
  hist ← stock_history ticker period;
  let hist := add_moving_averages hist in
  info ← stock_info ticker;
  mret (hist, current_data info).

(** ** [create_dashboard] *)

Definition html_head : string :=
  "
    <!DOCTYPE html>
    <html>
    <head>
        <title>Stock Dashboard</title>
        <script src=" +:+ dq +:+ "https://cdn.plot.ly/plotly-latest.min.js" +:+ dq +:+ "></script>
        <style>
            body {
                font-family: Arial, sans-serif;
                background: linear-gradient(135deg, #667eea 0%, #764ba2 100%);
                margin: 0;
                padding: 20px;
            }
            .container {
                max-width: 1400px;
                margin: 0 auto;
            }
            h1 {
                color: white;
                text-align: center;
                font-size: 3em;
                margin-bottom: 10px;
            }
            .subtitle {
                color: rgba(255,255,255,0.8);
                text-align: center;
                margin-bottom: 30px;
            }
            .cards {
                display: grid;
                grid-template-columns: repeat(auto-fit, minmax(300px, 1fr));
                gap: 20px;
                margin-bottom: 30px;
            }
            .card {
                background: white;
                border-radius: 15px;
                padding: 25px;
                box-shadow: 0 10px 30px rgba(0,0,0,0.2);
            }
            .stock-name {
                font-size: 1.5em;
                font-weight: bold;
                color: #333;
                margin-bottom: 10px;
            }
            .price {
                font-size: 2.5em;
                font-weight: bold;
                color: #667eea;
            }
            .change {
                font-size: 1.2em;
                margin-top: 5px;
            }
            .positive { color: #10b981; }
            .negative { color: #ef4444; }
            .stats {
                display: grid;
                grid-template-columns: 1fr 1fr;
                gap: 10px;
                margin-top: 15px;
                font-size: 0.9em;
            }
            .stat-label {
                color: #666;
            }
            .stat-value {
                font-weight: bold;
                color: #333;
            }
            .chart-container {
                background: white;
                border-radius: 15px;
                padding: 20px;
                margin-bottom: 20px;
                box-shadow: 0 10px 30px rgba(0,0,0,0.2);
            }
            .update-time {
                text-align: center;
                color: white;
                margin-top: 20px;
                font-size: 0.9em;
            }
        </style>
    </head>
    <body>
        <div class=" +:+ dq +:+ "container" +:+ dq +:+ ">
            <h1>📈 Live Stock Dashboard</h1>
            <div class=" +:+ dq +:+ "subtitle" +:+ dq +:+ ">Real-time market data and analysis</div>
            
            <div class=" +:+ dq +:+ "cards" +:+ dq +:+ ">
    ".

Definition change_class (current : Quote) : string :=
  if py_ge (change current) 0 then "positive" else "negative".

Definition change_sign (current : Quote) : string :=
  if py_ge (change current) 0 then "+" else EmptyString.

(** [format(x, ',')] *)
Definition comma (x : pynum) : string :=
  match x with
  | PyInt z => Fmt.sign (inject_Z z) +:+ Fmt.commas (Fmt.digits (Z.to_N (Z.abs z)))
  | PyFloat q => float_comma q
  end.

(** The card appended for one ticker. *)
Definition card (ticker : string) (current : Quote) : string :=
  let change_class := change_class current in
  let change_sign := change_sign current in
  "
            <div class=" +:+ dq +:+ "card" +:+ dq +:+ ">
                <div class=" +:+ dq +:+ "stock-name" +:+ dq +:+ ">"
  +:+ ticker
  +:+ "</div>
                <div class=" +:+ dq +:+ "price" +:+ dq +:+ ">$"
  +:+ Fmt.f2 (price current)
  +:+ "</div>
                <div class=" +:+ dq +:+ "change "
  +:+ change_class
  +:+ dq +:+ ">
                    "
  +:+ change_sign
  +:+ "$"
  +:+ Fmt.f2 (change current)
  +:+ " ("
  +:+ change_sign
  +:+ Fmt.f2 (change_pct current)
  +:+ "%)
                </div>
                <div class=" +:+ dq +:+ "stats" +:+ dq +:+ ">
                    <div><span class=" +:+ dq +:+ "stat-label" +:+ dq +:+ ">Volume:</span></div>
                    <div class=" +:+ dq +:+ "stat-value" +:+ dq +:+ ">"
  +:+ comma (volume current)
  +:+ "</div>
                    
                    <div><span class=" +:+ dq +:+ "stat-label" +:+ dq +:+ ">Market Cap:</span></div>
                    <div class=" +:+ dq +:+ "stat-value" +:+ dq +:+ ">"
  +:+ format_number (market_cap current)
  +:+ "</div>
                    
                    <div><span class=" +:+ dq +:+ "stat-label" +:+ dq +:+ ">Day Range:</span></div>
                    <div class=" +:+ dq +:+ "stat-value" +:+ dq +:+ ">$"
  +:+ Fmt.f2 (day_low current)
  +:+ " - $"
  +:+ Fmt.f2 (day_high current)
  +:+ "</div>
                    
                    <div><span class=" +:+ dq +:+ "stat-label" +:+ dq +:+ ">P/E Ratio:</span></div>
                    <div class=" +:+ dq +:+ "stat-value" +:+ dq +:+ ">"
  +:+ Fmt.f2 (pe_ratio current)
  +:+ "</div>
                </div>
            </div>
        ".

Definition cards_close : string :=
  "
            </div>
    ".

Definition bar_color (p : PricePoint) : string :=
  if Qlt_le_dec (Close p) (Open p) then "red" else "green".

Definition make_figure (ticker : string) (hist : DataFrame) : Figure := {|
  subplot_titles := (ticker +:+ " Price & Moving Averages", "Volume");
  candlestick := rows hist;
  ma20_y := MA20 hist;
  ma50_y := MA50 hist;
  volume_y := map Volume (rows hist);
  marker_color := map bar_color (rows hist)
|}.

Definition chart_block (chart_html : string) : string :=
  "
            <div class=" +:+ dq +:+ "chart-container" +:+ dq +:+ ">
                "
  +:+ chart_html
  +:+ "
            </div>
        ".

Definition footer (current_time : string) : string :=
  "
            <div class=" +:+ dq +:+ "update-time" +:+ dq +:+ ">
                Last updated: "
  +:+ current_time
  +:+ "
            </div>
        </div>
    </body>
    </html>
    ".

(** First loop: one fetch and one card per ticker. *)
Fixpoint cards_loop (tickers : list string) (html : string) : M string :=
  match tickers with
  | [] => mret html
  | ticker :: rest =>
      '(hist, current) ← get_stock_data ticker default_period;
      cards_loop rest (html +:+ card ticker current)
  end.

(** Second loop: one more fetch and one chart per ticker. *)
Fixpoint charts_loop (tickers : list string) (html : string) : M string :=
  match tickers with
  | [] => mret html
  | ticker :: rest =>
      '(hist, current) ← get_stock_data ticker default_period;
      let fig := make_figure ticker hist in
      let chart_html := plotly_to_html fig ("chart_" +:+ ticker) in
      charts_loop rest (html +:+ chart_block chart_html)
  end.

Definition create_dashboard (tickers : list string) : M string :=
  html ← cards_loop tickers html_head;
  html ← charts_loop tickers (html +:+ cards_close);
  current_time ← datetime_now;
  mret (html +:+ footer current_time).

End Dashboard.

(** ** The mean of a window, in the words of the specification *)

Definition Qsum (l : list Q) : Q := fold_right Qplus 0%Q l.

(** The values at the [len] indices from [lo] on. *)
Definition slice (values : list Q) (lo len : nat) : list Q :=
  map (fun j => nth j values 0%Q) (seq lo len).

(** The arithmetic mean of [values] over the indices [i-(w-1) .. i]. *)
Definition window_mean (w : nat) (values : list Q) (i : nat) : Q :=
  (Qsum (slice values (S i - w) w) / inject_Z (Z.of_nat w))%Q.

(** What the accumulator of [Rolling.roll] holds before index [i] is
    processed: the count and the sum of the window ending at [i-1]. *)
Definition acc_inv (w : nat) (values : list Q) (i : nat) (a : Rolling.acc) : Prop :=
  Rolling.nobs a = Nat.min i w /\
  (Rolling.sum_x a == Qsum (slice values (i - Nat.min i w) (Nat.min i w)))%Q.

(** The round trips of one call of [get_stock_data], and of one call per
    ticker of a list. *)
Definition fetch_calls (tickers : list string) : list Call :=
  flat_map (fun t => [History t default_period; Info t]) tickers.

(** ** Writing the report

    [with open('dashboard.html', 'w', encoding='utf-8') as f:
         f.write(dashboard_html)]

    Mode ['w'] truncates the file when it is opened; [f.write] hands the
    text to the buffered writer, which passes it on to the file in one or
    more chunks, the last of them when the file is closed at the latest. *)

Module File.

(** Where the writer stands. *)
Inductive phase :=
| BeforeOpen
| Opened
| Buffered (pending : string)
| Closed.

(** The content a reader of the path sees, and the writer's position. *)
Record state := { disk : string; at_phase : phase }.

Definition init (old : string) : state := {| disk := old; at_phase := BeforeOpen |}.

Inductive step (new : string) : state -> state -> Prop :=
| step_open old :
    step new {| disk := old; at_phase := BeforeOpen |}
             {| disk := EmptyString; at_phase := Opened |}
| step_write d :
    step new {| disk := d; at_phase := Opened |}
             {| disk := d; at_phase := Buffered new |}
| step_flush d chunk rest :
    chunk <> EmptyString ->
    step new {| disk := d; at_phase := Buffered (chunk +:+ rest) |}
             {| disk := d +:+ chunk; at_phase := Buffered rest |}
| step_close d :
    step new {| disk := d; at_phase := Buffered EmptyString |}
             {| disk := d; at_phase := Closed |}.

(** The states a reader may find the file in while [new] is written over
    [old]. *)
Definition reachable (old new : string) (s : state) : Prop :=
  rtc (step new) (init old) s.

(** What holds of every such state. *)
Definition inv (old new : string) (s : state) : Prop :=
  match at_phase s with
  | BeforeOpen => disk s = old
  | Opened => disk s = EmptyString
  | Buffered pending => disk s +:+ pending = new
  | Closed => disk s = new
  end.

End File.

(** ** The main block

    Besides the provider the main block touches the file
    [dashboard.html] ([None] while it does not exist), the console, and
    the time it spends in [time.sleep]. The prompt between the first run
    and the loop ([input()]) and the arrival of the interrupt are not
    modelled: [refresh_iterations] is a number of complete passes through
    the body of the [while] loop. *)

Record Host := {
  dashboard_html : option string;
  printed : list string;
  slept : Z
}.

Definition print (text : string) (h : Host) : Host :=
  {| dashboard_html := dashboard_html h;
     printed := printed h ++ [text];
     slept := slept h |}.

(** [with open('dashboard.html', 'w', encoding='utf-8') as f:
         f.write(dashboard_html)], run to its end: see [File.step]. *)
Definition write_dashboard (html : string) (h : Host) : Host :=
  {| dashboard_html := Some html;
     printed := printed h;
     slept := slept h |}.

Definition sleep (seconds : Z) (h : Host) : Host :=
  {| dashboard_html := dashboard_html h;
     printed := printed h;
     slept := slept h + seconds |}.

Definition tickers : list string := ["AAPL"; "GOOGL"; "TSLA"].

(** The character [chr(10)]. *)
Definition nl : string := String (ascii_of_nat 10) EmptyString.

(** The two clock readings of one pass of the loop: the one printed at
    its start ([%H:%M:%S]) and the one the build puts in the footer. *)
Record Tick := { at_start : string; at_build : string }.

Section Main.

Context {exn Provider : Type}.
Variable yf_history : Provider -> string -> string -> (exn + list PricePoint) * Provider.
Variable yf_info : Provider -> string -> (exn + gmap string pynum) * Provider.
Variable plotly_to_html : Figure -> string -> string.
Variable float_comma : Q -> string.

(** Lines 264 to 277: build once and save. An exception of the build
    leaves the block before the file is opened. *)
Definition first_run (s : World Provider * Host)
  : (exn + unit) * (World Provider * Host) :=
  let '(w, h) := s in
  let h := print "🚀 Creating your stock dashboard..." h in
  match create_dashboard yf_history yf_info plotly_to_html float_comma tickers w with
  | (inl e, w) => (inl e, (w, h))
  | (inr dashboard_html, w) =>
      let h := write_dashboard dashboard_html h in
      let h := print "✅ Dashboard created successfully!" h in
      let h := print "📁 Open 'dashboard.html' in your browser to view it" h in
      let h := print (nl +:+ "To add more stocks, edit the 'tickers' list in the code") h in
      (inr tt, (w, h))
  end.

(** Lines 286 to 291: one pass through the body of the loop. Only
    [KeyboardInterrupt] is caught around the loop, so an exception of
    the build ends the script. *)
Definition refresh_iteration (tick : Tick) (s : World Provider * Host)
  : (exn + unit) * (World Provider * Host) :=
  let '(w, h) := s in
  let h := print (nl +:+ "[" +:+ at_start tick +:+ "] Updating dashboard...") h in
  match create_dashboard yf_history yf_info plotly_to_html float_comma tickers
          (set_clock (at_build tick) w) with
  | (inl e, w) => (inl e, (w, h))
  | (inr dashboard_html, w) =>
      let h := write_dashboard dashboard_html h in
      let h := print "✅ Updated! Refresh your browser to see changes" h in
      let h := sleep 30 h in
      (inr tt, (w, h))
  end.

Fixpoint refresh_iterations (ticks : list Tick) (s : World Provider * Host)
  : (exn + unit) * (World Provider * Host) :=
  match ticks with
  | [] => (inr tt, s)
  | tick :: rest =>
      match refresh_iteration tick s with
      | (inl e, s) => (inl e, s)
      | (inr _, s) => refresh_iterations rest s
      end
  end.

End Main.

(** ** Concrete collaborators, for running the script *)

Module Demo.

(** Bar [i] of a series that rises by one a day. *)
Definition bar (i : nat) : PricePoint := {|
  Date := "day " +:+ Fmt.digits (N.of_nat i);
  Open := inject_Z (100 + Z.of_nat i);
  High := inject_Z (103 + Z.of_nat i);
  Low := inject_Z (99 + Z.of_nat i);
  Close := inject_Z (101 + Z.of_nat i);
  Volume := 1000 + Z.of_nat i
|}.

Definition bars : list PricePoint := map bar (seq 0 25).

Definition snapshot : gmap string pynum :=
  <["regularMarketPrice" := PyFloat (1895 # 10)]>
  (<["regularMarketChange" := PyInt 0]>
  (<["regularMarketChangePercent" := PyFloat (-1 # 100)]>
  (<["volume" := PyInt 1234567]>
  (<["marketCap" := PyInt 3400000000]> ∅)))).

(** The provider counts the round trips it served. It has no data for
    the symbol [NOPE] and cannot be reached for the symbol [BAD]. *)
Definition history (served : nat) (ticker period : string)
  : (string + list PricePoint) * nat :=
  if String.eqb ticker "BAD" then (inl "ConnectionError", S served)
  else if String.eqb ticker "NOPE" then (inr [], S served)
  else (inr bars, S served).

Definition info (served : nat) (ticker : string)
  : (string + gmap string pynum) * nat :=
  if String.eqb ticker "BAD" then (inl "ConnectionError", S served)
  else if String.eqb ticker "NOPE" then (inr ∅, S served)
  else (inr snapshot, S served).

Definition to_html (fig : Figure) (div_id : string) : string :=
  "<div id=" +:+ dq +:+ div_id +:+ dq +:+ "></div>".

(** Not consulted: the volumes of [snapshot] and [flat_quote] are ints. *)
Definition float_comma (q : Q) : string := EmptyString.

Definition world0 : World nat :=
  {| provider := 0%nat; clock := "2024-01-03 10:00:00"; log := [] |}.

Definition fetch := get_stock_data history info.

Definition build := create_dashboard history info to_html float_comma.

Definition host0 : Host :=
  {| dashboard_html := Some "an older report"; printed := []; slept := 0 |}.

Definition ticks : list Tick :=
  [ {| at_start := "10:00:30"; at_build := "2024-01-03 10:00:33" |};
    {| at_start := "10:01:03"; at_build := "2024-01-03 10:01:06" |} ].

(** A provider that answers its first twelve round trips and cannot be
    reached from then on. *)
Definition history_once (served : nat) (ticker period : string)
  : (string + list PricePoint) * nat :=
  if (served <? 12)%nat then (inr bars, S served)
  else (inl "ConnectionError", S served).

Definition info_once (served : nat) (ticker : string)
  : (string + gmap string pynum) * nat :=
  if (served <? 12)%nat then (inr snapshot, S served)
  else (inl "ConnectionError", S served).

(** A quote whose change is zero and whose percent change is negative. *)
Definition flat_quote : Quote := {|
  price := PyFloat (1895 # 10);
  change := PyInt 0;
  change_pct := PyFloat (-1 # 100);
  volume := PyInt 1234567;
  market_cap := PyInt 3400000000;
  pe_ratio := PyInt 0;
  day_high := PyInt 0;
  day_low := PyInt 0
|}.

End Demo.

(** The characters of a grouped integer: sign, comma and digits. *)
Definition plain_char (c : ascii) : Prop :=
  In c (list_ascii_of_string "-,0123456789").

Definition plain (s : string) : Prop :=
  Forall plain_char (list_ascii_of_string s).

(** The decimal digits. *)
Definition digit_char (c : ascii) : Prop :=
  In c (list_ascii_of_string "0123456789").

Definition all_digits (s : string) : Prop :=
  Forall digit_char (list_ascii_of_string s).

(** Reading a grouped number back: the commas are dropped. *)
Definition is_comma (c : ascii) : bool := Ascii.eqb c ","%char.

Definition strip_commas (s : string) : string :=
  string_of_list_ascii
    (List.filter (fun c => negb (is_comma c)) (list_ascii_of_string s)).

(** The cards of a list of quotes, and the chart blocks of a list of
    frames, one after the other. *)
Definition cards_html (float_comma : Q -> string) (l : list (string * Quote)) : string :=
  fold_right (fun tq rest => card float_comma (fst tq) (snd tq) +:+ rest) EmptyString l.

Definition charts_html (plotly_to_html : Figure -> string -> string)
    (l : list (string * DataFrame)) : string :=
  fold_right (fun th rest =>
                chart_block (plotly_to_html (make_figure (fst th) (snd th))
                               ("chart_" +:+ fst th)) +:+ rest)
             EmptyString l.

(** * Properties *)

(** ** Rolling means *)

Section RollingFacts.

Local Close Scope string_scope.
Local Open Scope Q_scope.
Local Open Scope nat_scope.

Lemma Qsum_app l1 l2 : Qsum (l1 ++ l2) == Qsum l1 + Qsum l2.
Proof.
  induction l1 as [|x l1 IH]; simpl.
  - now rewrite Qplus_0_l.
  - rewrite IH. now rewrite Qplus_assoc.
Qed.

Lemma slice_snoc values lo len :
  slice values lo (S len) = slice values lo len ++ [nth (lo + len) values 0%Q].
Proof. unfold slice. now rewrite seq_S, map_app. Qed.

Lemma slice_cons values lo len :
  slice values lo (S len) = nth lo values 0%Q :: slice values (S lo) len.
Proof. reflexivity. Qed.

(** Sliding a full window one step to the right. *)
Lemma Qsum_slide values lo len :
  Qsum (slice values (S lo) len) + nth lo values 0%Q
  == Qsum (slice values lo len) + nth (lo + len) values 0%Q.
Proof.
  destruct len as [|len].
  - simpl. rewrite Nat.add_0_r. reflexivity.
  - rewrite (slice_snoc values (S lo) len), (slice_cons values lo len).
    replace (lo + S len) with (S lo + len) by lia.
    rewrite Qsum_app. simpl Qsum. change (S lo + len) with (S (lo + len)). ring.
Qed.

Import Rolling.

Lemma step_inv w values i a :
  0 < w -> acc_inv w values i a ->
  acc_inv w values (S i) (step w values i a (nth i values 0%Q)).
Proof.
  intros Hw [Hn Hs]. unfold step.
  destruct (Nat.leb_spec w i) as [Hle|Hlt].
  - rewrite Nat.min_r in Hn, Hs by lia.
    unfold acc_inv, add_mean, remove_mean. cbn [nobs sum_x].
    rewrite Nat.min_r by lia. split; [lia|].
    rewrite Hs. replace (S i - w) with (S (i - w)) by lia.
    pose proof (Qsum_slide values (i - w) w) as E.
    replace (i - w + w) with i in E by lia.
    apply (Qplus_inj_r _ _ (nth (i - w) values 0%Q)). rewrite E. ring.
  - rewrite Nat.min_l in Hn, Hs by lia.
    unfold acc_inv, add_mean. cbn [nobs sum_x].
    rewrite Nat.min_l by lia. split; [lia|].
    rewrite Hs. replace (i - i) with 0 by lia. replace (S i - S i) with 0 by lia.
    rewrite slice_snoc, Qsum_app. simpl. ring.
Qed.

Lemma calc_mean_some w values i a :
  0 < w -> w <= S i -> acc_inv w values (S i) a ->
  exists m, calc_mean w a = Some m /\ m == window_mean w values i.
Proof.
  intros Hw Hle [Hn Hs]. rewrite Nat.min_r in Hn, Hs by lia.
  unfold calc_mean. rewrite Hn.
  replace ((w <=? w) && (0 <? w)) with true.
  - eexists. split; [reflexivity|]. unfold window_mean. now rewrite Hs.
  - symmetry. apply andb_true_iff. split; [apply Nat.leb_le | apply Nat.ltb_lt]; lia.
Qed.

Lemma calc_mean_none w values i a :
  S i < w -> acc_inv w values (S i) a -> calc_mean w a = None.
Proof.
  intros Hlt [Hn _]. rewrite Nat.min_l in Hn by lia.
  unfold calc_mean. rewrite Hn.
  replace (w <=? S i) with false; [reflexivity|].
  symmetry. apply Nat.leb_gt. lia.
Qed.

Lemma roll_length w values todo : forall i a,
  length (roll w values i a todo) = length todo.
Proof. induction todo as [|v todo IH]; intros; simpl; [reflexivity | now rewrite IH]. Qed.

(** The entry the pass produces for index [i + k]. *)
Lemma roll_nth w values (Hw : 0 < w) todo : forall i a k,
  (forall j, nth_error todo j = nth_error values (i + j)) ->
  acc_inv w values i a ->
  k < length todo ->
  (w <= S (i + k) ->
     exists m, nth_error (roll w values i a todo) k = Some (Some m)
               /\ m == window_mean w values (i + k)) /\
  (S (i + k) < w -> nth_error (roll w values i a todo) k = Some None).
Proof.
  induction todo as [|v todo IH]; intros i a k Htodo Hinv Hk; [simpl in Hk; lia|].
  assert (Hv : v = nth i values 0%Q).
  { specialize (Htodo 0). simpl in Htodo. rewrite Nat.add_0_r in Htodo.
    symmetry. now apply nth_error_nth. }
  assert (Hinv' : acc_inv w values (S i) (step w values i a v)).
  { rewrite Hv. now apply step_inv. }
  cbn [roll].
  destruct k as [|k].
  - rewrite Nat.add_0_r. simpl. split; intros H.
    + destruct (calc_mean_some w values i _ Hw H Hinv') as (m & -> & Hm). eauto.
    + now rewrite (calc_mean_none w values i _ H Hinv').
  - simpl nth_error. replace (i + S k) with (S i + k) by lia.
    apply IH; [|assumption|simpl in Hk; lia].
    intros j. specialize (Htodo (S j)). simpl in Htodo.
    now replace (S i + j) with (i + S j) by lia.
Qed.

Lemma acc_inv_init w values : acc_inv w values 0 {| sum_x := 0; nobs := 0 |}.
Proof. split; simpl; reflexivity. Qed.

(** The rolling mean agrees with the mean of the trailing window. *)
Lemma rolling_mean_spec w values (Hw : 0 < w) :
  length (mean w values) = length values /\
  (forall i, i < length values -> S i < w -> nth_error (mean w values) i = Some None) /\
  (forall i, i < length values -> w <= S i ->
     exists m, nth_error (mean w values) i = Some (Some m) /\ m == window_mean w values i).
Proof.
  unfold mean. split; [apply roll_length|].
  split; intros i Hi Hc;
    destruct (roll_nth w values Hw values 0 _ i (fun j => eq_refl) (acc_inv_init w values) Hi)
      as [Hsome Hnone]; simpl in Hsome, Hnone; auto.
Qed.

End RollingFacts.

(** ** Number formatting *)

Lemma py_ge_true n b : py_ge n b = true <-> (b <= to_Q n)%Q.
Proof. unfold py_ge. apply Qle_bool_iff. Qed.

Lemma py_ge_false n b : py_ge n b = false <-> (to_Q n < b)%Q.
Proof.
  unfold py_ge. split; intros H.
  - apply Qnot_le_lt. intros Hle. apply Qle_bool_iff in Hle. congruence.
  - destruct (Qle_bool b (to_Q n)) eqn:E; [|reflexivity].
    apply Qle_bool_iff in E. exfalso. exact (Qlt_not_le _ _ H E).
Qed.

Lemma e6_lt_e9 : (e6 < e9)%Q.
Proof. reflexivity. Qed.

Lemma e9_lt_e12 : (e9 < e12)%Q.
Proof. reflexivity. Qed.




Lemma format_number_plain num :
  (to_Q num < e6)%Q -> format_number num = "$" +:+ Fmt.comma_f0 num.
Proof.
  intros H6. unfold format_number.
  assert (H9 : (to_Q num < e9)%Q) by (eapply Qlt_trans; [exact H6 | exact e6_lt_e9]).
  assert (H12 : (to_Q num < e12)%Q) by (eapply Qlt_trans; [exact H9 | exact e9_lt_e12]).
  now rewrite (proj2 (py_ge_false _ _) H12), (proj2 (py_ge_false _ _) H9),
    (proj2 (py_ge_false _ _) H6).
Qed.



Lemma plain_app a b : plain a -> plain b -> plain (a +:+ b).
Proof.
  unfold plain. intros Ha Hb.
  induction a as [|c a IH]; simpl; [exact Hb|].
  inversion Ha; subst. constructor; auto.
Qed.

Lemma uint_plain d : plain (NilEmpty.string_of_uint d).
Proof.
  unfold plain.
  induction d; simpl; constructor;
    solve [exact IHd | unfold plain_char; simpl; tauto].
Qed.

Lemma digits_plain n : plain (Fmt.digits n).
Proof.
  unfold Fmt.digits, NilZero.string_of_uint.
  destruct (N.to_uint n) eqn:E; try (rewrite <- E; apply uint_plain).
  constructor; [unfold plain_char; simpl; tauto | constructor].
Qed.

Lemma group3_four a b c d rest :
  Fmt.group3 (a :: b :: c :: d :: rest)
  = a :: b :: c :: ","%char :: Fmt.group3 (d :: rest).
Proof. reflexivity. Qed.

Lemma group3_plain l : Forall plain_char l -> Forall plain_char (Fmt.group3 l).
Proof.
  remember (length l) as n eqn:Hn. revert l Hn.
  induction n as [n IH] using lt_wf_ind. intros l -> Hl.
  destruct l as [|a [|b [|c [|d rest]]]]; try exact Hl.
  rewrite group3_four.
  inversion Hl as [|? ? Pa Hl1]; subst.
  inversion Hl1 as [|? ? Pb Hl2]; subst.
  inversion Hl2 as [|? ? Pc Hl3]; subst.
  repeat (constructor; [assumption|]).
  constructor; [unfold plain_char; simpl; tauto|].
  apply (IH (length (d :: rest))); [simpl; lia | reflexivity | exact Hl3].
Qed.

Lemma commas_plain s : plain s -> plain (Fmt.commas s).
Proof.
  unfold plain, Fmt.commas. intros H.
  rewrite list_ascii_of_string_of_list_ascii.
  apply List.Forall_rev, group3_plain, List.Forall_rev, H.
Qed.

Lemma sign_plain q : plain (Fmt.sign q).
Proof.
  unfold Fmt.sign. destruct (Qle_bool 0 q); [constructor|].
  constructor; [unfold plain_char; simpl; tauto | constructor].
Qed.

Lemma comma_f0_plain num : plain (Fmt.comma_f0 num).
Proof.
  unfold Fmt.comma_f0, Fmt.fixed.
  apply plain_app; [apply sign_plain|].
  apply plain_app; [apply commas_plain, digits_plain | constructor].
Qed.

(** C9: the thresholds are inclusive: exactly 1e6, 1e9 and 1e12 take the
    M, B and T branch; every number strictly below 1e6, zero and the
    negative ones included, is printed as a dollar sign and a grouped
    integer, which holds a sign, commas and digits only, so no suffix. *)
Theorem format_number_thresholds :
  format_number (PyFloat e6) = "$1.00M" /\
  format_number (PyFloat e9) = "$1.00B" /\
  format_number (PyFloat e12) = "$1.00T" /\
  format_number (PyInt 1000000) = "$1.00M" /\
  format_number (PyInt 1000000000) = "$1.00B" /\
  format_number (PyInt 1000000000000) = "$1.00T" /\
  format_number (PyInt 999999) = "$999,999" /\
  format_number (PyInt 0) = "$0" /\
  format_number (PyInt (-1234567)) = "$-1,234,567" /\
  forall num, (to_Q num < e6)%Q ->
    format_number num = "$" +:+ Fmt.comma_f0 num /\ plain (Fmt.comma_f0 num).
Proof.
  do 9 (split; [vm_compute; reflexivity|]).
  intros num H. split; [now apply format_number_plain | apply comma_f0_plain].
Qed.

Lemma format_number_thresholds_witness :
  (to_Q (PyInt (-42)) < e6)%Q /\
  format_number (PyInt (-42)) = "$" +:+ Fmt.comma_f0 (PyInt (-42)) /\
  plain (Fmt.comma_f0 (PyInt (-42))).
Proof.
  assert (H : (to_Q (PyInt (-42)) < e6)%Q) by reflexivity.
  split; [exact H|].
  exact (proj2 (proj2 (proj2 (proj2 (proj2 (proj2 (proj2 (proj2 (proj2
    format_number_thresholds)))))))) (PyInt (-42)) H).
Defined.

(** ** Gain, loss and the sign glyph *)

Lemma change_nonneg (q : Quote) :
  (0 <= to_Q (change q))%Q -> change_class q = "positive" /\ change_sign q = "+".
Proof.
  intros H. unfold change_class, change_sign.
  now rewrite (proj2 (py_ge_true _ _) H).
Qed.




(** ** The fetch and the two loops *)

Section DashboardFacts.

Context {exn Provider : Type}.
Variable yf_history : Provider -> string -> string -> (exn + list PricePoint) * Provider.
Variable yf_info : Provider -> string -> (exn + gmap string pynum) * Provider.
Variable plotly_to_html : Figure -> string -> string.
Variable float_comma : Q -> string.

Local Abbreviation fetch := (get_stock_data yf_history yf_info).
Local Abbreviation cards := (cards_loop yf_history yf_info float_comma).
Local Abbreviation charts := (charts_loop yf_history yf_info plotly_to_html).
Local Abbreviation build := (create_dashboard yf_history yf_info plotly_to_html float_comma).

Local Close Scope string_scope.

(** The three ways [get_stock_data] can end. *)
Lemma get_stock_data_eq t period (w : World Provider) :
  fetch t period w =
  match yf_history (provider w) t period with
  | (inl e, p1) =>
      (inl e, {| provider := p1; clock := clock w;
                 log := log w ++ [History t period] |})
  | (inr hist, p1) =>
      match yf_info p1 t with
      | (inl e, p2) =>
          (inl e, {| provider := p2; clock := clock w;
                     log := (log w ++ [History t period]) ++ [Info t] |})
      | (inr info, p2) =>
          (inr (add_moving_averages hist, current_data info),
           {| provider := p2; clock := clock w;
              log := (log w ++ [History t period]) ++ [Info t] |})
      end
  end.
Proof.
  unfold get_stock_data, mbind, M_bind, stock_history, stock_info, mret, M_ret.
  destruct (yf_history (provider w) t period) as [[e|hist] p1]; [reflexivity|].
  cbn [provider clock log].
  destruct (yf_info p1 t) as [[e|info] p2]; reflexivity.
Qed.

Lemma cards_loop_cons t rest html (w : World Provider) :
  cards (t :: rest) html w =
  match fetch t default_period w with
  | (inl e, w') => (inl e, w')
  | (inr (hist, current), w') =>
      cards rest (html +:+ card float_comma t current) w'
  end.
Proof.
  cbn [cards_loop]. unfold mbind, M_bind.
  destruct (fetch t default_period w) as [[e|[hist current]] w']; reflexivity.
Qed.

Lemma charts_loop_cons t rest html (w : World Provider) :
  charts (t :: rest) html w =
  match fetch t default_period w with
  | (inl e, w') => (inl e, w')
  | (inr (hist, current), w') =>
      charts rest
        (html +:+ chart_block (plotly_to_html (make_figure t hist) ("chart_" +:+ t))) w'
  end.
Proof.
  cbn [charts_loop]. unfold mbind, M_bind.
  destruct (fetch t default_period w) as [[e|[hist current]] w']; reflexivity.
Qed.

Lemma create_dashboard_eq tickers (w : World Provider) :
  build tickers w =
  match cards tickers html_head w with
  | (inl e, w1) => (inl e, w1)
  | (inr html, w1) =>
      match charts tickers (html +:+ cards_close) w1 with
      | (inl e, w2) => (inl e, w2)
      | (inr html, w2) => (inr (html +:+ footer (clock w2)), w2)
      end
  end.
Proof.
  unfold create_dashboard, mbind, M_bind, datetime_now, mret, M_ret.
  destruct (cards tickers html_head w) as [[e|html] w1]; [reflexivity|].
  destruct (charts tickers (html +:+ cards_close) w1) as [[e|html'] w2]; reflexivity.
Qed.

(** *** The log of round trips *)

Lemma fetch_log t period (w w' : World Provider) r :
  fetch t period w = (inr r, w') ->
  log w' = log w ++ [History t period; Info t].
Proof.
  rewrite get_stock_data_eq.
  destruct (yf_history (provider w) t period) as [[e|hist] p1]; [discriminate|].
  destruct (yf_info p1 t) as [[e|info] p2]; [discriminate|].
  intros [= _ <-]. cbn [log]. now rewrite <- app_assoc.
Qed.

Lemma cards_log tickers : forall html (w w' : World Provider) r,
  cards tickers html w = (inr r, w') ->
  log w' = log w ++ fetch_calls tickers.
Proof.
  induction tickers as [|t rest IH]; intros html w w' r.
  - intros [= _ <-]. simpl. now rewrite app_nil_r.
  - rewrite cards_loop_cons.
    destruct (fetch t default_period w) as [[e|[hist current]] w1] eqn:E; [discriminate|].
    intros H. rewrite (IH _ _ _ _ H), (fetch_log _ _ _ _ _ E).
    unfold fetch_calls. simpl. now rewrite <- app_assoc.
Qed.

Lemma charts_log tickers : forall html (w w' : World Provider) r,
  charts tickers html w = (inr r, w') ->
  log w' = log w ++ fetch_calls tickers.
Proof.
  induction tickers as [|t rest IH]; intros html w w' r.
  - intros [= _ <-]. simpl. now rewrite app_nil_r.
  - rewrite charts_loop_cons.
    destruct (fetch t default_period w) as [[e|[hist current]] w1] eqn:E; [discriminate|].
    intros H. rewrite (IH _ _ _ _ H), (fetch_log _ _ _ _ _ E).
    unfold fetch_calls. simpl. now rewrite <- app_assoc.
Qed.

(** *** A failing fetch *)


(** *** The clock *)

Lemma fetch_clock_blind t period : clock_blind (fetch t period).
Proof.
  intros c w. rewrite !get_stock_data_eq. cbn [set_clock provider clock log].
  destruct (yf_history (provider w) t period) as [[e|hist] p1]; [reflexivity|].
  destruct (yf_info p1 t) as [[e|info] p2]; reflexivity.
Qed.

Lemma cards_clock_blind tickers : forall html, clock_blind (cards tickers html).
Proof.
  induction tickers as [|t rest IH]; intros html c w; [reflexivity|].
  rewrite !cards_loop_cons, fetch_clock_blind.
  destruct (fetch t default_period w) as [[e|[hist current]] w1]; cbn [fst snd];
    [reflexivity | apply IH].
Qed.

Lemma charts_clock_blind tickers : forall html, clock_blind (charts tickers html).
Proof.
  induction tickers as [|t rest IH]; intros html c w; [reflexivity|].
  rewrite !charts_loop_cons, fetch_clock_blind.
  destruct (fetch t default_period w) as [[e|[hist current]] w1]; cbn [fst snd];
    [reflexivity | apply IH].
Qed.

(** The report is a clock-free body followed by the footer of the time
    it was built at. *)
Lemma create_dashboard_clock tickers p l :
  exists body : exn + string, forall c,
    fst (build tickers {| provider := p; clock := c; log := l |})
    = match body with
      | inl e => inl e
      | inr b => inr (b +:+ footer c)
      end.
Proof.
  set (w0 := {| provider := p; clock := EmptyString; log := l |}).
  exists (match cards tickers html_head w0 with
          | (inl e, _) => inl e
          | (inr html, w1) => fst (charts tickers (html +:+ cards_close) w1)
          end).
  intros c. change {| provider := p; clock := c; log := l |} with (set_clock c w0).
  rewrite create_dashboard_eq, cards_clock_blind.
  destruct (cards tickers html_head w0) as [[e|html] w1]; cbn [fst snd]; [reflexivity|].
  rewrite charts_clock_blind.
  destruct (charts tickers (html +:+ cards_close) w1) as [[e|html'] w2];
    cbn [fst snd]; reflexivity.
Qed.

(** *** Claims about the fetch and the build *)


(** C2 (as the code has it): a build that returns has fetched every
    ticker twice, once in the card loop and once more in the chart loop:
    its round trips are those of one pass over the list followed by
    those of a second pass, four per ticker. *)
Theorem build_fetches_twice tickers (w w' : World Provider) html :
  build tickers w = (inr html, w') ->
  log w' = log w ++ fetch_calls tickers ++ fetch_calls tickers /\
  length (log w') = (length (log w) + 4 * length tickers)%nat.
Proof.
  rewrite create_dashboard_eq.
  destruct (cards tickers html_head w) as [[e|html1] w1] eqn:E1; [discriminate|].
  destruct (charts tickers (html1 +:+ cards_close) w1) as [[e|html2] w2] eqn:E2;
    [discriminate|].
  intros [= _ <-].
  assert (L : log w2 = log w ++ fetch_calls tickers ++ fetch_calls tickers).
  { rewrite (charts_log _ _ _ _ _ E2), (cards_log _ _ _ _ _ E1).
    now rewrite <- app_assoc. }
  split; [exact L|].
  rewrite L, !length_app.
  assert (F : length (fetch_calls tickers) = (2 * length tickers)%nat).
  { clear. induction tickers as [|t rest IH]; simpl in *; lia. }
  lia.
Qed.


(** C6 (as the code has it): [get_stock_data] raises nothing of its
    own. With an empty series from the provider it returns an empty
    frame and the quote of the snapshot; it raises exactly when one of
    its two provider calls raises, and then with that call's exception. *)
Theorem fetch_outcomes t period (w : World Provider) :
  (forall p1 info p2,
     yf_history (provider w) t period = (inr [], p1) ->
     yf_info p1 t = (inr info, p2) ->
     fst (fetch t period w)
     = inr ({| rows := []; MA20 := []; MA50 := [] |}, current_data info)) /\
  (forall e p1,
     yf_history (provider w) t period = (inl e, p1) ->
     fst (fetch t period w) = inl e) /\
  (forall hist p1 e p2,
     yf_history (provider w) t period = (inr hist, p1) ->
     yf_info p1 t = (inl e, p2) ->
     fst (fetch t period w) = inl e) /\
  (forall e,
     fst (fetch t period w) = inl e ->
     fst (yf_history (provider w) t period) = inl e \/
     exists hist p1, yf_history (provider w) t period = (inr hist, p1)
                     /\ fst (yf_info p1 t) = inl e).
Proof.
  rewrite get_stock_data_eq. repeat split.
  - intros p1 info p2 -> ->. reflexivity.
  - intros e p1 ->. reflexivity.
  - intros hist p1 e p2 -> ->. reflexivity.
  - intros e.
    destruct (yf_history (provider w) t period) as [[e'|hist] p1];
      [intros H; left; cbn [fst] in *; congruence|].
    intros H. right. exists hist, p1. split; [reflexivity|].
    destruct (yf_info p1 t) as [[e'|info] p2]; cbn [fst] in *;
      [congruence | discriminate].
Qed.

(** C8: two builds from the same provider state differ in the time of
    the footer only: both raise the same exception, or both return the
    same document up to the footer, each ending in the footer of its own
    clock. *)
Theorem build_deterministic_modulo_clock tickers (p : Provider) l c1 c2 :
  match fst (build tickers {| provider := p; clock := c1; log := l |}),
        fst (build tickers {| provider := p; clock := c2; log := l |}) with
  | inr h1, inr h2 =>
      exists body, h1 = body +:+ footer c1 /\ h2 = body +:+ footer c2
  | inl e1, inl e2 => e1 = e2
  | _, _ => False
  end.
Proof.
  destruct (create_dashboard_clock tickers p l) as [body Hbody].
  rewrite (Hbody c1), (Hbody c2).
  destruct body as [e|b]; [reflexivity | exists b; split; reflexivity].
Qed.

(** C10: the price of the quote is the snapshot's [currentPrice], else
    its [regularMarketPrice], else zero; each of the other seven fields
    is the value under its one key, else zero. *)
Theorem quote_fallbacks t period (w : World Provider) hist p1 info p2 :
  yf_history (provider w) t period = (inr hist, p1) ->
  yf_info p1 t = (inr info, p2) ->
  exists frame cur,
    fst (fetch t period w) = inr (frame, cur) /\
    price cur = match info !! "currentPrice" with
                | Some v => v
                | None => match info !! "regularMarketPrice" with
                          | Some v => v
                          | None => PyInt 0
                          end
                end /\
    change cur = default (PyInt 0) (info !! "regularMarketChange") /\
    change_pct cur = default (PyInt 0) (info !! "regularMarketChangePercent") /\
    volume cur = default (PyInt 0) (info !! "volume") /\
    market_cap cur = default (PyInt 0) (info !! "marketCap") /\
    pe_ratio cur = default (PyInt 0) (info !! "trailingPE") /\
    day_high cur = default (PyInt 0) (info !! "dayHigh") /\
    day_low cur = default (PyInt 0) (info !! "dayLow").
Proof.
  intros Hh Hi. rewrite get_stock_data_eq, Hh, Hi.
  eexists _, _. split; [reflexivity|].
  unfold current_data, dict_get. cbn [price change change_pct volume market_cap
    pe_ratio day_high day_low].
  repeat split;
    repeat match goal with |- context [info !! ?k] => destruct (info !! k) end;
    reflexivity.
Qed.

End DashboardFacts.

(** ** The script run against the concrete collaborators *)



Lemma build_fetches_twice_witness :
  exists html w',
    Demo.build ["AAPL"; "TSLA"] Demo.world0 = (inr html, w') /\
    log w' = (log Demo.world0 ++ fetch_calls ["AAPL"; "TSLA"]
                ++ fetch_calls ["AAPL"; "TSLA"])%list /\
    length (log w') = (length (log Demo.world0) + 4 * 2)%nat.
Proof.
  pose (r := Demo.build ["AAPL"; "TSLA"] Demo.world0).
  assert (H : Demo.build ["AAPL"; "TSLA"] Demo.world0
              = (inr (match fst r with inr h => h | inl _ => EmptyString end), snd r))
    by (vm_compute; reflexivity).
  eexists _, _. split; [exact H|].
  exact (build_fetches_twice Demo.history Demo.info Demo.to_html Demo.float_comma
           ["AAPL"; "TSLA"] Demo.world0 _ _ H).
Defined.

(** Against C2 as stated: a build for the single ticker AAPL returns a
    report after four round trips, two for the card and two more for the
    chart. *)
Lemma one_ticker_four_round_trips :
  (exists html, fst (Demo.build ["AAPL"] Demo.world0) = inr html) /\
  log (snd (Demo.build ["AAPL"] Demo.world0))
  = [History "AAPL" "3mo"; Info "AAPL"; History "AAPL" "3mo"; Info "AAPL"].
Proof.
  split; [eexists; vm_compute; reflexivity | vm_compute; reflexivity].
Qed.


Lemma fetch_outcomes_witness :
  Demo.history 0 "NOPE" default_period = (inr [], 1%nat) /\
  Demo.info 1 "NOPE" = (inr ∅, 2%nat) /\
  fst (Demo.fetch "NOPE" default_period Demo.world0)
  = inr ({| rows := []; MA20 := []; MA50 := [] |}, current_data ∅).
Proof.
  assert (Hh : Demo.history (provider Demo.world0) "NOPE" default_period = (inr [], 1%nat))
    by reflexivity.
  assert (Hi : Demo.info 1 "NOPE" = (inr ∅, 2%nat)) by reflexivity.
  split; [exact Hh|]. split; [exact Hi|].
  exact (proj1 (fetch_outcomes Demo.history Demo.info "NOPE" default_period Demo.world0)
           1%nat ∅ 2%nat Hh Hi).
Defined.

(** Against C6 as stated: the provider has no series for NOPE, and the
    fetch returns an empty frame with a quote of zeros instead of
    raising. *)
Lemma no_series_is_returned_empty :
  fst (Demo.history 0 "NOPE" default_period) = inr [] /\
  fst (Demo.fetch "NOPE" default_period Demo.world0)
  = inr ({| rows := []; MA20 := []; MA50 := [] |},
         {| price := PyInt 0; change := PyInt 0; change_pct := PyInt 0;
            volume := PyInt 0; market_cap := PyInt 0; pe_ratio := PyInt 0;
            day_high := PyInt 0; day_low := PyInt 0 |}).
Proof. split; vm_compute; reflexivity. Qed.

Lemma quote_fallbacks_witness :
  exists frame cur,
    fst (Demo.fetch "AAPL" default_period Demo.world0) = inr (frame, cur) /\
    price cur = PyFloat (1895 # 10) /\
    change cur = PyInt 0 /\
    pe_ratio cur = PyInt 0.
Proof.
  destruct (quote_fallbacks Demo.history Demo.info "AAPL" default_period Demo.world0
              Demo.bars 1%nat Demo.snapshot 2%nat eq_refl eq_refl)
    as (frame & cur & E & Hprice & Hchange & _ & _ & _ & Hpe & _).
  exists frame, cur. split; [exact E|].
  split; [rewrite Hprice; vm_compute; reflexivity|].
  split; [rewrite Hchange; vm_compute; reflexivity|].
  rewrite Hpe. vm_compute. reflexivity.
Defined.

(** The averages of the rising series: the window ending at bar 24
    holds the closes 106 to 125. *)
Example ma20_of_bars :
  nth_error (MA20 (add_moving_averages Demo.bars)) 24 = Some (Some (2310 # 20)).
Proof. vm_compute. reflexivity. Qed.

(** ** Writing the file *)

Lemma append_cons x (a b : string) : String x a +:+ b = String x (a +:+ b).
Proof. reflexivity. Qed.

Lemma append_nil_r (s : string) : s +:+ EmptyString = s.
Proof.
  induction s as [|x s IH]; [reflexivity | now rewrite append_cons, IH].
Qed.

Lemma append_assoc (a b c : string) : (a +:+ b) +:+ c = a +:+ (b +:+ c).
Proof.
  induction a as [|x a IH]; [reflexivity | now rewrite !append_cons, IH].
Qed.

Lemma file_step_inv old new s s' :
  File.step new s s' -> File.inv old new s -> File.inv old new s'.
Proof.
  intros Hstep. destruct Hstep as [o|d|d chunk rest Hne|d];
    unfold File.inv; cbn [File.disk File.at_phase]; intros Hinv.
  - reflexivity.
  - now rewrite Hinv.
  - now rewrite append_assoc.
  - now rewrite append_nil_r in Hinv.
Qed.

Lemma file_reachable_inv old new s : File.reachable old new s -> File.inv old new s.
Proof.
  unfold File.reachable. intros H.
  refine (rtc_ind_r (File.inv old new) (File.init old) _ _ s H).
  - reflexivity.
  - intros y z _ Hstep IH. eapply file_step_inv; eassumption.
Qed.

Lemma file_flush_all new d pending :
  pending <> EmptyString ->
  File.step new {| File.disk := d; File.at_phase := File.Buffered pending |}
                {| File.disk := d +:+ pending; File.at_phase := File.Buffered EmptyString |}.
Proof.
  intros Hne. pose proof (File.step_flush new d pending EmptyString Hne) as Hstep.
  now rewrite append_nil_r in Hstep.
Qed.

(** The write completes when the buffer leaves in one piece. *)
Lemma file_write_completes old new :
  File.reachable old new {| File.disk := new; File.at_phase := File.Closed |}.
Proof.
  unfold File.reachable, File.init.
  eapply rtc_l; [apply File.step_open|].
  eapply rtc_l; [apply File.step_write|].
  destruct new as [|c new'].
  - eapply rtc_l; [apply File.step_close | apply rtc_refl].
  - eapply rtc_l; [apply file_flush_all; discriminate|].
    eapply rtc_l; [apply File.step_close | apply rtc_refl].
Qed.

(** Two moments of writing ["new report"] over ["old report"]. *)
Lemma file_emptied :
  File.reachable "old report" "new report"
    {| File.disk := EmptyString; File.at_phase := File.Opened |}.
Proof.
  unfold File.reachable, File.init.
  eapply rtc_l; [apply File.step_open | apply rtc_refl].
Defined.

Lemma file_half_written :
  File.reachable "old report" "new report"
    {| File.disk := "new"; File.at_phase := File.Buffered " report" |}.
Proof.
  unfold File.reachable, File.init.
  eapply rtc_l; [apply File.step_open|].
  eapply rtc_l; [apply File.step_write|].
  eapply rtc_l; [|apply rtc_refl].
  apply (File.step_flush "new report" EmptyString "new" " report"). discriminate.
Defined.

(** C7 (as the code has it): the report is written in place. Opening
    the file empties it, and the text then arrives in it piece by piece:
    at every moment of a write a reader finds the old content or a
    prefix of the new one, and the whole new content once the file is
    closed; and the write can always run to that end. *)
Theorem report_written_in_place old new :
  File.reachable old new {| File.disk := new; File.at_phase := File.Closed |} /\
  forall s, File.reachable old new s ->
    (File.disk s = old \/ exists rest, new = File.disk s +:+ rest) /\
    (File.at_phase s = File.Closed -> File.disk s = new).
Proof.
  split; [apply file_write_completes|].
  intros s Hs. apply file_reachable_inv in Hs. unfold File.inv in Hs.
  destruct s as [d ph]; simpl in *. destruct ph as [| |pending|].
  - split; [now left | discriminate].
  - split; [right; exists new; now rewrite Hs | discriminate].
  - split; [right; exists pending; now rewrite Hs | discriminate].
  - split; [right; exists EmptyString; now rewrite append_nil_r | auto].
Qed.

Lemma report_written_in_place_witness :
  File.reachable "old report" "new report"
    {| File.disk := "new"; File.at_phase := File.Buffered " report" |} /\
  ("new" = "old report" \/ exists rest, "new report" = "new" +:+ rest).
Proof.
  split; [exact file_half_written|].
  exact (proj1 (proj2 (report_written_in_place "old report" "new report") _
                  file_half_written)).
Defined.

(** Against C7 as stated: while a new report replaces an old one, a
    reader can find the file empty, and can find it holding only the
    first part of the new report. *)
Lemma reader_sees_partial_report :
  ~ (forall old new s, File.reachable old new s ->
       File.disk s = old \/ File.disk s = new) /\
  File.reachable "old report" "new report"
    {| File.disk := EmptyString; File.at_phase := File.Opened |} /\
  File.reachable "old report" "new report"
    {| File.disk := "new"; File.at_phase := File.Buffered " report" |}.
Proof.
  split; [|split; [exact file_emptied | exact file_half_written]].
  intros H. destruct (H _ _ _ file_emptied) as [E|E]; discriminate E.
Qed.

(** * Further properties of the code *)

(** ** Rounding and the [f] formats *)

Section RoundingFacts.

Local Close Scope string_scope.

Lemma round_half_even_cases q :
  let n := Qnum q in
  let d := Zpos (Qden q) in
  (2 * (n mod d) < d /\ Fmt.round_half_even q = n / d) \/
  (2 * (n mod d) > d /\ Fmt.round_half_even q = n / d + 1) \/
  (2 * (n mod d) = d /\ Z.even (Fmt.round_half_even q) = true /\
     (Fmt.round_half_even q = n / d \/ Fmt.round_half_even q = n / d + 1)).
Proof.
  intros n d. unfold Fmt.round_half_even. fold n d.
  destruct (Z.compare_spec (2 * (n mod d)) d) as [E|L|G].
  - right. right. split; [exact E|].
    destruct (Z.even (n / d)) eqn:Ev.
    + split; [exact Ev | now left].
    + split; [|now right].
      rewrite Z.even_add, Ev. reflexivity.
  - left. split; [exact L | reflexivity].
  - right. left. split; [lia | reflexivity].
Qed.

(** X1: the rounding of the [f] formats is to the nearest integer: the
    result is never more than one half away from the number, and a number
    exactly half way between two integers goes to the even one. *)
Theorem round_half_even_nearest q :
  (q - (1 # 2) <= inject_Z (Fmt.round_half_even q))%Q /\
  (inject_Z (Fmt.round_half_even q) <= q + (1 # 2))%Q /\
  ((inject_Z (Fmt.round_half_even q) - q == 1 # 2)%Q \/
   (q - inject_Z (Fmt.round_half_even q) == 1 # 2)%Q ->
   Z.even (Fmt.round_half_even q) = true).
Proof.
  destruct q as [n d].
  pose proof (round_half_even_cases (n # d)) as C. cbn [Qnum Qden] in C.
  pose proof (Z.div_mod n (Zpos d) ltac:(lia)) as Hdm.
  pose proof (Z.mod_pos_bound n (Zpos d) ltac:(lia)) as Hr.
  set (z := Fmt.round_half_even (n # d)) in *.
  set (f := n / Zpos d) in *. set (r := n mod Zpos d) in *.
  unfold Qle, Qeq, Qminus, Qplus, Qopp, inject_Z. cbn [Qnum Qden].
  rewrite ?Pos2Z.inj_mul.
  destruct C as [[H1 H2]|[[H1 H2]|[H1 [H2 H3]]]].
  - split; [nia|]. split; [nia|]. intros [T|T]; exfalso; nia.
  - split; [nia|]. split; [nia|]. intros [T|T]; exfalso; nia.
  - split; [destruct H3; nia|]. split; [destruct H3; nia|]. intros _. exact H2.
Qed.

Lemma round_half_even_nearest_witness :
  ((5 # 2) - inject_Z (Fmt.round_half_even (5 # 2)) == 1 # 2)%Q /\
  Z.even (Fmt.round_half_even (5 # 2)) = true.
Proof.
  assert (T : ((5 # 2) - inject_Z (Fmt.round_half_even (5 # 2)) == 1 # 2)%Q)
    by reflexivity.
  split; [exact T|].
  exact (proj2 (proj2 (round_half_even_nearest (5 # 2))) (or_intror T)).
Defined.



End RoundingFacts.



(** *** Two decimals *)

Lemma uint_all_digits d : all_digits (NilEmpty.string_of_uint d).
Proof.
  unfold all_digits.
  induction d; simpl; constructor;
    solve [exact IHd | unfold digit_char; simpl; tauto].
Qed.

Lemma digits_all_digits n : all_digits (Fmt.digits n).
Proof.
  unfold Fmt.digits, NilZero.string_of_uint.
  destruct (N.to_uint n) eqn:E; try (rewrite <- E; apply uint_all_digits).
  constructor; [unfold digit_char; simpl; tauto | constructor].
Qed.

Lemma zero_pad_all_digits w : forall s, all_digits s -> all_digits (Fmt.zero_pad w s).
Proof.
  induction w as [|w IH]; intros s Hs; [exact Hs|].
  cbn [Fmt.zero_pad]. destruct (String.length s <? S w)%nat; [|exact Hs].
  apply IH. constructor; [unfold digit_char; simpl; tauto | exact Hs].
Qed.

Lemma zero_pad2_length (k : nat) :
  (k < 100)%nat -> String.length (Fmt.zero_pad 2 (Fmt.digits (N.of_nat k))) = 2%nat.
Proof.
  intros Hk. do 100 (destruct k as [|k]; [reflexivity|]). lia.
Qed.

(** X3: the [.2f] format always ends in a point and exactly two digits:
    the text is the sign, the integer digits, a point and two fractional
    digits, for every number. *)
Theorem f2_two_decimals x :
  exists ip fp,
    Fmt.f2 x = Fmt.sign (to_Q x) +:+ ip +:+ "." +:+ fp /\
    all_digits ip /\ all_digits fp /\ String.length fp = 2%nat.
Proof.
  unfold Fmt.f2, Fmt.fixed.
  set (m := Z.to_N (Fmt.round_half_even (Qabs (to_Q x) * inject_Z (10 ^ Z.of_nat 2)))).
  change (Z.to_N (10 ^ Z.of_nat 2)) with 100%N.
  exists (Fmt.digits (m / 100)), (Fmt.zero_pad 2 (Fmt.digits (m mod 100))).
  split; [reflexivity|].
  split; [apply digits_all_digits|].
  split; [apply zero_pad_all_digits, digits_all_digits|].
  rewrite <- (N2Nat.id (m mod 100)). apply zero_pad2_length.
  pose proof (N.mod_lt m 100 ltac:(discriminate)). lia.
Qed.

(** *** Grouping by commas *)

Section GroupingFacts.

Local Close Scope string_scope.
Local Open Scope nat_scope.

Let keep (c : ascii) : bool := negb (is_comma c).

Lemma group3_strip : forall n l,
  length l <= n -> List.filter keep (Fmt.group3 l) = List.filter keep l.
Proof.
  induction n as [|n IH]; intros l Hl.
  - destruct l; [reflexivity | simpl in Hl; lia].
  - destruct l as [|a [|b [|c [|d rest]]]]; try reflexivity.
    rewrite group3_four.
    change (a :: b :: c :: ","%char :: Fmt.group3 (d :: rest))
      with ([a; b; c] ++ ","%char :: Fmt.group3 (d :: rest)).
    change (a :: b :: c :: d :: rest) with ([a; b; c] ++ d :: rest).
    rewrite !List.filter_app. f_equal.
    change (List.filter keep (","%char :: Fmt.group3 (d :: rest)))
      with (List.filter keep (Fmt.group3 (d :: rest))).
    apply IH. simpl in *. lia.
Qed.

Lemma group3_length : forall n l,
  length l <= n -> length (Fmt.group3 l) = length l + (length l - 1) / 3.
Proof.
  induction n as [|n IH]; intros l Hl.
  - destruct l; [reflexivity | simpl in Hl; lia].
  - destruct l as [|a [|b [|c [|d rest]]]]; try reflexivity.
    rewrite group3_four. cbn [length]. rewrite IH by (simpl in *; lia).
    cbn [length].
    replace (S (S (S (S (length rest)))) - 1) with (length rest + 1 * 3) by lia.
    rewrite Nat.div_add by lia.
    replace (S (length rest) - 1) with (length rest) by lia. lia.
Qed.

Lemma filter_keep_id l :
  Forall (fun c => c <> ","%char) l -> List.filter keep l = l.
Proof.
  induction 1 as [|c l Hc _ IH]; [reflexivity|].
  cbn [List.filter]. unfold keep at 1, is_comma.
  destruct (Ascii.eqb_spec c ","%char) as [E|_]; [contradiction|].
  cbn [negb]. now rewrite IH.
Qed.

Lemma filter_rev {A} (f : A -> bool) l :
  List.filter f (rev l) = rev (List.filter f l).
Proof.
  induction l as [|x l IH]; [reflexivity|].
  cbn [rev List.filter]. rewrite List.filter_app, IH. cbn [List.filter].
  destruct (f x); [reflexivity | now rewrite app_nil_r].
Qed.

(** X4: grouping only inserts commas: dropping the commas of a grouped
    text gives the text back, and a text of n characters (n at least 1)
    gets (n - 1) / 3 commas. *)
Theorem commas_round_trip s :
  Forall (fun c => c <> ","%char) (list_ascii_of_string s) ->
  strip_commas (Fmt.commas s) = s /\
  String.length (Fmt.commas s) = String.length s + (String.length s - 1) / 3.
Proof.
  intros Hs. unfold strip_commas, Fmt.commas. split.
  - rewrite list_ascii_of_string_of_list_ascii. fold keep.
    rewrite filter_rev, (group3_strip _ _ (le_n _)), <- filter_rev, rev_involutive.
    rewrite filter_keep_id by exact Hs.
    apply string_of_list_ascii_of_string.
  - assert (L : forall t, String.length t = length (list_ascii_of_string t)).
    { induction t as [|c t IH]; simpl; [reflexivity | now rewrite IH]. }
    rewrite !L, list_ascii_of_string_of_list_ascii, length_rev.
    rewrite (group3_length _ _ (le_n _)), length_rev. reflexivity.
Qed.

End GroupingFacts.

Lemma commas_round_trip_witness :
  strip_commas (Fmt.commas "1234567") = "1234567" /\
  String.length (Fmt.commas "1234567") = (7 + (7 - 1) / 3)%nat.
Proof.
  apply (commas_round_trip "1234567").
  repeat constructor; discriminate.
Defined.

(** ** More on the rolling means *)

Section RollingMore.

Local Close Scope string_scope.
Local Open Scope nat_scope.

(** X5: a series shorter than the window has no mean at all: with fewer
    than [w] values every entry of the rolling mean is the missing value
    (so a frame of fewer than 50 bars has an empty MA50 line). *)
Theorem rolling_mean_short w values :
  length values < w -> Rolling.mean w values = repeat None (length values).
Proof.
  intros Hlen. assert (Hw : 0 < w) by lia.
  destruct (rolling_mean_spec w values Hw) as (Hl & Hnone & _).
  apply nth_error_ext. intros i.
  destruct (Nat.lt_ge_cases i (length values)) as [Hi|Hi].
  - rewrite (Hnone i Hi) by lia. symmetry. now apply nth_error_repeat.
  - rewrite (proj2 (nth_error_None _ _)) by (rewrite Hl; exact Hi).
    symmetry. apply nth_error_None. now rewrite repeat_length.
Qed.






(** *** Later values do not change earlier means *)

Lemma roll_values_ext w values values' : forall todo i a,
  (forall j, j < i + length todo -> nth j values 0%Q = nth j values' 0%Q) ->
  Rolling.roll w values i a todo = Rolling.roll w values' i a todo.
Proof.
  induction todo as [|v todo IH]; intros i a Hagree; [reflexivity|].
  cbn [Rolling.roll]. unfold Rolling.step.
  rewrite (Hagree (i - w)) by (simpl; lia).
  f_equal. apply IH. intros j Hj. apply Hagree. simpl. lia.
Qed.

Lemma roll_firstn w values : forall t1 t2 i a,
  firstn (length t1) (Rolling.roll w values i a (t1 ++ t2))
  = Rolling.roll w values i a t1.
Proof.
  induction t1 as [|v t1 IH]; intros t2 i a; [reflexivity|].
  cbn [app length Rolling.roll firstn]. f_equal. apply IH.
Qed.

(** X7: the rolling mean looks backwards only: appending further values
    to a series leaves the means of the values already there unchanged. *)
Theorem rolling_mean_prefix w l1 l2 :
  firstn (length l1) (Rolling.mean w (l1 ++ l2)) = Rolling.mean w l1.
Proof.
  unfold Rolling.mean. rewrite roll_firstn.
  apply roll_values_ext. intros j Hj. simpl in Hj. now apply app_nth1.
Qed.

End RollingMore.

Lemma rolling_mean_short_witness :
  Rolling.mean 50 (map Close Demo.bars) = repeat None 25.
Proof.
  apply (rolling_mean_short 50 (map Close Demo.bars)). vm_compute. lia.
Defined.

(** ** More on the build *)

Section BuildMore.

Context {exn Provider : Type}.
Variable yf_history : Provider -> string -> string -> (exn + list PricePoint) * Provider.
Variable yf_info : Provider -> string -> (exn + gmap string pynum) * Provider.
Variable plotly_to_html : Figure -> string -> string.
Variable float_comma : Q -> string.

Local Abbreviation fetch := (get_stock_data yf_history yf_info).
Local Abbreviation cards := (cards_loop yf_history yf_info float_comma).
Local Abbreviation charts := (charts_loop yf_history yf_info plotly_to_html).
Local Abbreviation build := (create_dashboard yf_history yf_info plotly_to_html float_comma).

(** *** The shape of the document *)

Lemma clock_blind_keeps {A} (m : @M exn Provider A) (w : World Provider) :
  clock_blind m -> clock (snd (m w)) = clock w.
Proof.
  intros Hm. specialize (Hm (clock w) w).
  assert (E : set_clock (clock w) w = w) by (destruct w; reflexivity).
  rewrite E in Hm. destruct (m w) as [r w']. cbn [fst snd] in *.
  injection Hm as Hw. rewrite Hw at 1. reflexivity.
Qed.

Lemma cards_shape tickers : forall html (w w' : World Provider) r,
  cards tickers html w = (inr r, w') ->
  exists quotes, length quotes = length tickers /\
    r = html +:+ cards_html float_comma (combine tickers quotes).
Proof.
  induction tickers as [|t rest IH]; intros html w w' r.
  - intros [= <- _]. exists []. split; [reflexivity|].
    simpl. now rewrite append_nil_r.
  - rewrite cards_loop_cons.
    destruct (fetch t default_period w) as [[e|[hist current]] w1]; [discriminate|].
    intros H. destruct (IH _ _ _ _ H) as (qs & Hlen & ->).
    exists (current :: qs). split; [simpl; now rewrite Hlen|].
    simpl. now rewrite append_assoc.
Qed.

Lemma charts_shape tickers : forall html (w w' : World Provider) r,
  charts tickers html w = (inr r, w') ->
  exists frames, length frames = length tickers /\
    r = html +:+ charts_html plotly_to_html (combine tickers frames).
Proof.
  induction tickers as [|t rest IH]; intros html w w' r.
  - intros [= <- _]. exists []. split; [reflexivity|].
    simpl. now rewrite append_nil_r.
  - rewrite charts_loop_cons.
    destruct (fetch t default_period w) as [[e|[hist current]] w1]; [discriminate|].
    intros H. destruct (IH _ _ _ _ H) as (fs & Hlen & ->).
    exists (hist :: fs). split; [simpl; now rewrite Hlen|].
    simpl. now rewrite append_assoc.
Qed.

(** X8: a report that is returned holds, after the fixed head, one card
    per ticker of the list, in the order of the list (a ticker listed
    twice gets two cards), then one chart block per ticker in the same
    order, then the footer with the clock reading. *)
Theorem report_shape tickers (w w' : World Provider) html :
  build tickers w = (inr html, w') ->
  exists quotes frames,
    length quotes = length tickers /\
    length frames = length tickers /\
    html = html_head
           +:+ cards_html float_comma (combine tickers quotes)
           +:+ cards_close
           +:+ charts_html plotly_to_html (combine tickers frames)
           +:+ footer (clock w).
Proof.
  rewrite create_dashboard_eq.
  destruct (cards tickers html_head w) as [[e|html1] w1] eqn:E1; [discriminate|].
  destruct (charts tickers (html1 +:+ cards_close) w1) as [[e|html2] w2] eqn:E2;
    [discriminate|].
  intros [= <- _].
  destruct (cards_shape _ _ _ _ _ E1) as (qs & Hq & ->).
  destruct (charts_shape _ _ _ _ _ E2) as (fs & Hf & ->).
  exists qs, fs. split; [exact Hq|]. split; [exact Hf|].
  assert (C2 : clock w2 = clock w1).
  { pose proof (clock_blind_keeps _ w1
        (charts_clock_blind yf_history yf_info plotly_to_html tickers
           ((html_head +:+ cards_html float_comma (combine tickers qs)) +:+ cards_close)))
      as K. now rewrite E2 in K. }
  assert (C1 : clock w1 = clock w).
  { pose proof (clock_blind_keeps _ w
        (cards_clock_blind yf_history yf_info float_comma tickers html_head)) as K.
    now rewrite E1 in K. }
  rewrite C2, C1. now rewrite !append_assoc.
Qed.

(** *** When the build returns *)




(** X10: with an empty ticker list the build makes no round trip and
    cannot fail: it returns the head, the closing of the card grid and
    the footer, and leaves the world as it was. *)
Theorem build_empty (w : World Provider) :
  build [] w = (inr (html_head +:+ cards_close +:+ footer (clock w)), w).
Proof. rewrite create_dashboard_eq. cbn. now rewrite append_assoc. Qed.

(** *** The round trips of any build *)






(** *** The figure of a chart *)


End BuildMore.

Lemma report_shape_witness :
  exists html w' quotes frames,
    Demo.build ["AAPL"; "TSLA"] Demo.world0 = (inr html, w') /\
    length quotes = 2%nat /\ length frames = 2%nat /\
    html = html_head
           +:+ cards_html Demo.float_comma (combine ["AAPL"; "TSLA"] quotes)
           +:+ cards_close
           +:+ charts_html Demo.to_html (combine ["AAPL"; "TSLA"] frames)
           +:+ footer (clock Demo.world0).
Proof.
  pose (r := Demo.build ["AAPL"; "TSLA"] Demo.world0).
  assert (H : Demo.build ["AAPL"; "TSLA"] Demo.world0
              = (inr (match fst r with inr h => h | inl _ => EmptyString end), snd r))
    by (vm_compute; reflexivity).
  destruct (report_shape Demo.history Demo.info Demo.to_html Demo.float_comma
              ["AAPL"; "TSLA"] Demo.world0 _ _ H) as (qs & fs & Hq & Hf & E).
  exists (match fst r with inr h => h | inl _ => EmptyString end), (snd r), qs, fs.
  split; [exact H|]. split; [exact Hq|]. split; [exact Hf | exact E].
Defined.



(** ** The sign glyph before a negative percent *)

Lemma f2_negative x : (to_Q x < 0)%Q -> exists r, Fmt.f2 x = "-" +:+ r.
Proof.
  intros H. unfold Fmt.f2, Fmt.fixed, Fmt.sign.
  replace (Qle_bool 0 (to_Q x)) with false; [eexists; reflexivity|].
  symmetry. destruct (Qle_bool 0 (to_Q x)) eqn:E; [|reflexivity].
  apply Qle_bool_iff in E. exfalso. exact (Qlt_not_le _ _ H E).
Qed.

Lemma infix_skip (needle a s : string) :
  (exists pre post, s = pre +:+ needle +:+ post) ->
  exists pre post, a +:+ s = pre +:+ needle +:+ post.
Proof.
  intros (pre & post & ->). exists (a +:+ pre), post. now rewrite append_assoc.
Qed.

Ltac find_infix :=
  first [ solve [ eexists (String " " EmptyString), _;
                  rewrite ?append_assoc; reflexivity ]
        | apply infix_skip; find_infix ].

(** X13: the glyph before the percent is the one of the change: for a
    quote whose change is zero or more while its percent change is
    negative, the card shows the percent with a plus directly followed
    by its own minus. *)
Theorem card_mixed_signs (float_comma : Q -> string) ticker (current : Quote) :
  (0 <= to_Q (change current))%Q ->
  (to_Q (change_pct current) < 0)%Q ->
  exists pre post, card float_comma ticker current = pre +:+ "(+-" +:+ post.
Proof.
  intros Hc Hp.
  destruct (f2_negative _ Hp) as [r Hr].
  destruct (change_nonneg current Hc) as [_ Hs].
  unfold card. cbv zeta. rewrite Hs, Hr.
  find_infix.
Qed.

Lemma card_mixed_signs_witness :
  exists pre post,
    card Demo.float_comma "AAPL" Demo.flat_quote = pre +:+ "(+-" +:+ post.
Proof.
  apply (card_mixed_signs Demo.float_comma "AAPL" Demo.flat_quote).
  - vm_compute. discriminate.
  - reflexivity.
Defined.

(** ** The main block *)

Section MainFacts.

Context {exn Provider : Type}.
Variable yf_history : Provider -> string -> string -> (exn + list PricePoint) * Provider.
Variable yf_info : Provider -> string -> (exn + gmap string pynum) * Provider.
Variable plotly_to_html : Figure -> string -> string.
Variable float_comma : Q -> string.

Local Abbreviation build := (create_dashboard yf_history yf_info plotly_to_html float_comma).
Local Abbreviation run1 := (first_run yf_history yf_info plotly_to_html float_comma).
Local Abbreviation pass := (refresh_iteration yf_history yf_info plotly_to_html float_comma).
Local Abbreviation passes := (refresh_iterations yf_history yf_info plotly_to_html float_comma).







End MainFacts.


(** The provider that serves twelve round trips: the first run saves
    its report, the first pass of the loop raises, and the report of the
    first run is still in the file. *)
Example refresh_raises_keeps_report :
  let run := first_run Demo.history_once Demo.info_once Demo.to_html Demo.float_comma
               (Demo.world0, Demo.host0) in
  let again := refresh_iterations Demo.history_once Demo.info_once Demo.to_html
                 Demo.float_comma Demo.ticks (snd run) in
  fst run = inr tt /\
  fst again = inl "ConnectionError" /\
  dashboard_html (snd (snd again)) = dashboard_html (snd (snd run)) /\
  dashboard_html (snd (snd run)) <> dashboard_html Demo.host0.
Proof. vm_compute. repeat split; discriminate. Qed.
